(** * Domino experiment tracking and GenAI tracing helpers

    A shallow embedding of the two template modules of the plugin,

      - [templates/experiment/experiment_setup.py]
      - [templates/tracing/tracing_setup.py]

    together with the properties their specification states.

    The modules are glue code over the process environment, the MLflow
    client and the OpenAI client.  The embedding keeps that shape:

      - [os.environ] is a finite map from names to strings;
      - every call into MLflow that returns is recorded, in order, in the
        process state; [mlflow.set_experiment] and [mlflow.set_tags] are
        taken to return, while the outcome of the unguarded autolog call of
        [setup_tracing], of the imports of [setup_autolog] and of the
        requests of the judge evaluator is a parameter of the model;
      - [print] appends a line to the standard output of the process;
      - Python values that the evaluators inspect are a small inductive type,
        a [dict] being a finite map with string keys;
      - a Python [float] is an IEEE 754 binary64 datum ([spec_float] at
        precision 53 and maximal exponent 1024), so that [0.8], [0.5] and
        the division by [10] are the operations Python performs;
      - exceptions are values; a computation that can raise returns a
        [pyresult]. *)

From Stdlib Require Import ZArith String Ascii List Lia.
From Stdlib Require Import Floats.SpecFloat.
From stdpp Require Import gmap strings list fin_maps.

Set Warnings "-register-all,-clear-no-such-hyp".
Local Open Scope string_scope.
Local Open Scope list_scope.

(** ** Python values *)

(** The values an evaluator receives and returns. *)
Inductive pyval : Type :=
| VNone
| VBool (b : bool)
| VInt (z : Z)
| VFloat (f : spec_float)
| VStr (s : string)
| VList (l : list pyval)
| VDict (d : gmap string pyval).

(** [isinstance(v, dict)], and the items of a value that passed the test. *)
Definition is_dict (v : pyval) : bool :=
  match v with VDict _ => true | _ => false end.

Definition as_dict (v : pyval) : gmap string pyval :=
  match v with VDict d => d | _ => ∅ end.

(** [len(s)] for a string. *)
Definition py_len (s : string) : pyval := VInt (Z.of_nat (String.length s)).

(** [d.get(key, dflt)]. *)
Definition dict_get (d : gmap string pyval) (key : string) (dflt : pyval) : pyval :=
  default dflt (d !! key).

(** [x in xs] for a list of strings: equality with one of the elements. *)
Definition py_in (x : string) (xs : list string) : bool :=
  bool_decide (x ∈ xs).

(** ** Exceptions *)

(** The classes of exception the code can meet.  The last three derive from
    [BaseException] only: an [except Exception] clause does not catch them. *)
Inductive exn_class : Type :=
| ValueError
| TypeError
| AttributeError
| IndexError
| ImportError
| ConnectionError
| TimeoutError
| RuntimeError
| OpenAIError
| KeyboardInterrupt
| SystemExit
| GeneratorExit.

Record exn : Type := Exn { exn_cls : exn_class; exn_msg : string }.

(** [isinstance(e, Exception)]. *)
Definition is_Exception (e : exn) : bool :=
  match exn_cls e with
  | KeyboardInterrupt | SystemExit | GeneratorExit => false
  | _ => true
  end.

Inductive pyresult (A : Type) : Type :=
| Returns (a : A)
| Raises (e : exn).
Arguments Returns {A} a.
Arguments Raises {A} e.

(** Sequencing: an exception raised by a statement leaves the block.  With
    these instances a block is written [x ← c; k]. *)
#[global] Instance pyresult_ret : MRet pyresult := @Returns.

#[global] Instance pyresult_bind : MBind pyresult :=
  fun A X (k : A -> pyresult X) (c : pyresult A) =>
    match c with
    | Returns a => k a
    | Raises e => Raises e
    end.

(** [try: body except Exception: handler]. *)
Definition try_except_Exception {A : Type} (body : pyresult A) (handler : A) : pyresult A :=
  match body with
  | Returns a => Returns a
  | Raises e => if is_Exception e then Returns handler else Raises e
  end.

(** ** Strings *)

(** The characters [str.strip()] removes, among the code points below 256. *)
Definition py_isspace (c : ascii) : bool :=
  let n := N_of_ascii c in
  ((9 <=? n) && (n <=? 13) || (28 <=? n) && (n <=? 32) || (n =? 133) || (n =? 160))%N.

Fixpoint lstrip (s : string) : string :=
  match s with
  | EmptyString => EmptyString
  | String c s' => if py_isspace c then lstrip s' else s
  end.

Definition rstrip (s : string) : string :=
  String.rev (lstrip (String.rev s)).

Definition py_strip (s : string) : string := rstrip (lstrip s).

(** ** Floats: IEEE 754 binary64 *)

Definition prec : Z := 53.
Definition emax : Z := 1024.

(** The float nearest to an integer, [float(z)]. *)
Definition float_of_Z (z : Z) : spec_float := binary_normalize prec emax z 0 false.

(** The literals of the source. *)
Definition float_0_8 : spec_float := S754_finite false 7205759403792794 (-53).
Definition float_0_5 : spec_float := S754_finite false 4503599627370496 (-53).
Definition float_0_1 : spec_float := S754_finite false 7205759403792794 (-56).
Definition float_0 : spec_float := S754_zero false.
Definition float_1 : spec_float := S754_finite false 4503599627370496 (-52).
Definition float_10 : spec_float := S754_finite false 5629499534213120 (-49).

(** Numbers as [min], [max] and [/] see them: an [int] or a [float]. *)
Inductive pynum : Type :=
| NInt (z : Z)
| NFloat (f : spec_float).

Definition to_float (n : pynum) : spec_float :=
  match n with
  | NInt z => float_of_Z z
  | NFloat f => f
  end.

(** [a < b].  An [int] operand is compared through its float; the integer
    operands of this program are the literals [0] and [10], which convert
    exactly. *)
Definition num_lt (a b : pynum) : bool :=
  match a, b with
  | NInt x, NInt y => (x <? y)%Z
  | _, _ => SFltb (to_float a) (to_float b)
  end.

Definition num_gt (a b : pynum) : bool := num_lt b a.

(** [min(a, b)]: the second argument replaces the first only when it is
    strictly smaller; [max(a, b)] likewise when it is strictly greater. *)
Definition py_min (a b : pynum) : pynum := if num_lt b a then b else a.
Definition py_max (a b : pynum) : pynum := if num_gt b a then b else a.

(** [a / b], true division, for a divisor that is not zero. *)
Definition py_truediv (a b : pynum) : spec_float :=
  SFdiv prec emax (to_float a) (to_float b).

(** ** The process: environment, MLflow client, standard output *)

Inductive mlflow_call : Type :=
| set_experiment (experiment_name : string)
| set_tags (tags : gmap string string)
| autolog (flavor : string).

Record process : Type := Process {
  environ : gmap string string;
  mlflow_calls : list mlflow_call;
  stdout : list string
}.

(** [os.environ.get(name, dflt)]. *)
Definition environ_get (p : process) (name dflt : string) : string :=
  default dflt (environ p !! name).

(** [os.environ[name] = value]. *)
Definition environ_set (name value : string) (p : process) : process :=
  {| environ := <[name := value]> (environ p);
     mlflow_calls := mlflow_calls p;
     stdout := stdout p |}.

Definition mlflow (c : mlflow_call) (p : process) : process :=
  {| environ := environ p;
     mlflow_calls := mlflow_calls p ++ [c];
     stdout := stdout p |}.

Definition print (line : string) (p : process) : process :=
  {| environ := environ p;
     mlflow_calls := mlflow_calls p;
     stdout := stdout p ++ [line] |}.

(** ** experiment_setup.py *)

Module ExperimentSetup.

(** [setup_experiment(base_name)]: the experiment name and the process
    after the call. *)
Definition setup_experiment (base_name : string) (p : process) : string * process :=
  let username := environ_get p "DOMINO_STARTING_USERNAME" "unknown" in
  let project := environ_get p "DOMINO_PROJECT_NAME" "unknown" in
  let experiment_name := base_name +:+ "-" +:+ project +:+ "-" +:+ username in
  let p := mlflow (set_experiment experiment_name) p in
  let p := print ("Experiment set: " +:+ experiment_name) p in
  (experiment_name, p).

(** The dictionary literal handed to [mlflow.set_tags]. *)
Definition domino_tags (p : process) : gmap string string :=
  <["domino.hardware_tier" := environ_get p "DOMINO_HARDWARE_TIER_NAME" "unknown"]>
  (<["domino.run_id" := environ_get p "DOMINO_RUN_ID" "unknown"]>
  (<["domino.project" := environ_get p "DOMINO_PROJECT_NAME" "unknown"]>
  (<["domino.user" := environ_get p "DOMINO_STARTING_USERNAME" "unknown"]> ∅))).

Definition log_domino_context (p : process) : process :=
  mlflow (set_tags (domino_tags p)) p.

Definition enable_large_artifact_upload (p : process) : process :=
  let p := environ_set "MLFLOW_ENABLE_PROXY_MULTIPART_UPLOAD" "true" p in
  let p := environ_set "MLFLOW_MULTIPART_UPLOAD_CHUNK_SIZE" "104857600" p in
  print "Enabled multipart upload for large artifacts" p.

(** [isinstance(e, ImportError)]. *)
Definition is_ImportError (e : exn) : bool :=
  match exn_cls e with
  | ImportError => true
  | _ => false
  end.




End ExperimentSetup.

(** ** tracing_setup.py *)

(** The OpenAI client, as far as the judge evaluator uses it. *)
Record chat_message : Type := ChatMessage { content : option string }.
Record chat_choice : Type := ChatChoice { message : chat_message }.
Record chat_completion : Type := ChatCompletion { choices : list chat_choice }.

Record chat_request : Type := ChatRequest {
  model : string;
  messages : list (gmap string string);
  max_tokens : Z;
  temperature : spec_float
}.

(** What lies outside the repository: the builtins [repr] and [float], and
    the OpenAI SDK.  [OpenAI_new] stands for [from openai import OpenAI]
    followed by [OpenAI()]; [chat_completions_create] for the request sent to
    the judge model.  Each of them may raise. *)
Record externals : Type := Externals {
  py_repr : pyval -> string;
  py_float : string -> pyresult spec_float;
  OpenAI_new : pyresult unit;
  chat_completions_create : chat_request -> pyresult chat_completion
}.

(** [str(v)]: a string is its own string form, every other value of [pyval]
    prints as its [repr]. *)
Definition py_str (X : externals) (v : pyval) : string :=
  match v with
  | VStr s => s
  | _ => py_repr X v
  end.

Module TracingSetup.

Definition unknown_framework (framework : string) : exn :=
  Exn ValueError
    ("Unknown framework: " +:+ framework +:+
     ". Use 'openai', 'anthropic', or 'langchain'").

(** [setup_tracing(framework)].  [autolog_call flavor] tells what
    [mlflow.flavor.autolog()] does in the running interpreter; the call is not
    guarded, so an exception it raises leaves [setup_tracing] before the line
    is printed. *)
Definition setup_tracing (autolog_call : string -> pyresult unit)
    (framework : string) (p : process) : pyresult unit * process :=
  if String.eqb framework "openai" then
    match autolog_call "openai" with
    | Returns _ =>
        let p := mlflow (autolog "openai") p in
        let p := print "Enabled OpenAI auto-tracing" p in
        (Returns tt, p)
    | Raises e => (Raises e, p)
    end
  else if String.eqb framework "anthropic" then
    match autolog_call "anthropic" with
    | Returns _ =>
        let p := mlflow (autolog "anthropic") p in
        let p := print "Enabled Anthropic auto-tracing" p in
        (Returns tt, p)
    | Raises e => (Raises e, p)
    end
  else if String.eqb framework "langchain" then
    match autolog_call "langchain" with
    | Returns _ =>
        let p := mlflow (autolog "langchain") p in
        let p := print "Enabled LangChain auto-tracing" p in
        (Returns tt, p)
    | Raises e => (Raises e, p)
    end
  else
    (Raises (unknown_framework framework), p).

(** [response_length]: the three branches on the type of [output]. *)
Definition response_length (X : externals) (output : pyval) : pyval :=
  match output with
  | VStr s => py_len s
  | VDict d =>
      let response :=
        dict_get d "response" (dict_get d "content" (VStr (py_str X output))) in
      py_len (py_str X response)
  | _ => py_len (py_str X output)
  end.

(** The closure [evaluator] that [create_evaluator(metrics)] returns. *)
Definition create_evaluator (X : externals) (metrics : option (list string))
    (inputs : gmap string pyval) (output : pyval) : gmap string pyval :=
  let metrics := default ["quality_score"; "response_length"] metrics in
  let scores : gmap string pyval := ∅ in
  let scores :=
    if py_in "response_length" metrics
    then <["response_length" := response_length X output]> scores
    else scores in
  let scores :=
    if py_in "quality_score" metrics
    then <["quality_score" := VFloat float_0_8]> scores
    else scores in
  let scores :=
    if py_in "confidence" metrics && is_dict output
    then <["confidence" := dict_get (as_dict output) "confidence" (VInt 0)]> scores
    else scores in
  scores.

Definition judge_prompt (X : externals) (query response : pyval) : string :=
  "Rate this response on a scale of 0-10.

Question: " +:+ py_str X query +:+ "
Response: " +:+ py_str X response +:+ "

Consider:
- Relevance: Does it answer the question?
- Completeness: Is the answer thorough?
- Clarity: Is it easy to understand?

Respond with only a number 0-10.".

(** [xs[0]]. *)
Definition first_choice (xs : list chat_choice) : pyresult chat_choice :=
  match xs with
  | c :: _ => Returns c
  | [] => Raises (Exn IndexError "list index out of range")
  end.

(** [content.strip()], where [content] may be [None]. *)
Definition content_strip (c : option string) : pyresult string :=
  match c with
  | Some s => Returns (py_strip s)
  | None => Raises (Exn AttributeError "'NoneType' object has no attribute 'strip'")
  end.

(** [max(0, min(10, score)) / 10]. *)
Definition normalize_score (score : spec_float) : spec_float :=
  py_truediv (py_max (NInt 0) (py_min (NInt 10) (NFloat score))) (NInt 10).

(** The body of the [try] block: the scoring call and the parsing of its
    answer. *)
Definition judge_score (X : externals) (judge_model prompt : string) : pyresult spec_float :=
  judge_response ← chat_completions_create X
    {| model := judge_model;
       messages := [ <["content" := prompt]> (<["role" := "user"]> ∅) ];
       max_tokens := 10;
       temperature := float_0_1 |};
  choice ← first_choice (choices judge_response);
  text ← content_strip (content (message choice));
  score ← py_float X text;
  mret (normalize_score score).

(** The query and the response the prompt quotes. *)
Definition extract_query (X : externals) (inputs : gmap string pyval) : pyval :=
  dict_get inputs "query" (dict_get inputs "question" (VStr (py_str X (VDict inputs)))).

Definition extract_response (X : externals) (output : pyval) : pyval :=
  if is_dict output
  then dict_get (as_dict output) "response"
         (dict_get (as_dict output) "content" (VStr (py_str X output)))
  else VStr (py_str X output).

(** The closure [evaluator] that [create_llm_judge_evaluator(judge_model)]
    returns.  The client is built before the [try] block is entered. *)
Definition create_llm_judge_evaluator (X : externals) (judge_model : string)
    (inputs : gmap string pyval) (output : pyval) : pyresult (gmap string pyval) :=
  _ ← OpenAI_new X;
  let query := extract_query X inputs in
  let response := extract_response X output in
  let prompt := judge_prompt X query response in
  score ← try_except_Exception (judge_score X judge_model prompt) float_0_5;
  mret (<["judge_model" := VStr judge_model]>
         (<["llm_judge_score" := VFloat score]> ∅)).

(** One round of the loop of [get_aggregation_metrics]. *)
Definition add_aggregations (aggregations : list (string * string)) (name : string)
    : list (string * string) :=
  let aggregations := aggregations ++ [(name, "mean")] in
  let aggregations :=
    if py_in name ["response_length"; "latency"]
    then aggregations ++ [(name, "max")] else aggregations in
  let aggregations :=
    if py_in name ["quality_score"; "confidence"]
    then aggregations ++ [(name, "min")] else aggregations in
  aggregations.

Definition get_aggregation_metrics (metric_names : option (list string))
    : list (string * string) :=
  let metric_names :=
    default ["quality_score"; "response_length"; "confidence"] metric_names in
  foldl add_aggregations [] metric_names.

End TracingSetup.

(** ** Sample worlds

    Concrete externals on which the statements below are exercised: [repr] is
    a placeholder, [float] knows the two answers of the sample judge. *)

Definition sample_float (s : string) : pyresult spec_float :=
  if String.eqb s "7" then Returns (float_of_Z 7)
  else if String.eqb s "nan" then Returns S754_nan
  else Raises (Exn ValueError ("could not convert string to float: '" +:+ s +:+ "'")).

Definition answer (text : string) : chat_completion :=
  {| choices := [ {| message := {| content := Some text |} |} ] |}.

(** A judge that answers [" 7"] followed by a newline. *)
Definition online : externals :=
  {| py_repr := fun _ => "<object>";
     py_float := sample_float;
     OpenAI_new := Returns tt;
     chat_completions_create := fun _ => Returns (answer " 7
") |}.

(** A judge that cannot be reached. *)
Definition offline : externals :=
  {| py_repr := fun _ => "<object>";
     py_float := sample_float;
     OpenAI_new := Returns tt;
     chat_completions_create := fun _ => Raises (Exn ConnectionError "Connection error.") |}.

Definition sample_output : gmap string pyval :=
  <["model" := VStr "gpt-4o-mini"]> (<["response" := VStr "Hi"]> ∅).

(** A judge that answers nan, one that sends no choice, one whose only choice
    has no content, and a client that cannot be built. *)
Definition nan_judge : externals :=
  {| py_repr := fun _ => "<object>";
     py_float := sample_float;
     OpenAI_new := Returns tt;
     chat_completions_create := fun _ => Returns (answer "nan") |}.

Definition mute_judge : externals :=
  {| py_repr := fun _ => "<object>";
     py_float := sample_float;
     OpenAI_new := Returns tt;
     chat_completions_create := fun _ => Returns {| choices := [] |} |}.

(** An interrupt reaches the process while the request is under way. *)
Definition interrupted : externals :=
  {| py_repr := fun _ => "<object>";
     py_float := sample_float;
     OpenAI_new := Returns tt;
     chat_completions_create := fun _ => Raises (Exn KeyboardInterrupt "") |}.

(** MLflow in an interpreter where every autolog call returns, and in one
    where the anthropic package is not installed. *)
Definition autolog_returns (flavor : string) : pyresult unit := Returns tt.

Definition anthropic_missing (flavor : string) : pyresult unit :=
  if String.eqb flavor "anthropic"
  then Raises (Exn ImportError "No module named 'anthropic'")
  else Returns tt.

Definition no_key : externals :=
  {| py_repr := fun _ => "<object>";
     py_float := sample_float;
     OpenAI_new := Raises (Exn OpenAIError "The api_key client option must be set");
     chat_completions_create := fun _ => Returns (answer "7") |}.

(** ** Vocabulary of the statements *)

(** The framework names [setup_tracing] accepts. *)
Definition supported_frameworks : list string := ["openai"; "anthropic"; "langchain"].

(** The line [setup_tracing] prints for a supported name. *)
Definition tracing_line (framework : string) : string :=
  if String.eqb framework "openai" then "Enabled OpenAI auto-tracing"
  else if String.eqb framework "anthropic" then "Enabled Anthropic auto-tracing"
  else "Enabled LangChain auto-tracing".

(** What one metric name contributes to the aggregation list. *)
Definition aggregations_of (name : string) : list (string * string) :=
  [(name, "mean")]
  ++ (if py_in name ["response_length"; "latency"] then [(name, "max")] else [])
  ++ (if py_in name ["quality_score"; "confidence"] then [(name, "min")] else []).



(** An import that succeeds, and one that a block tolerates. *)
Definition imports (import_module : string -> pyresult unit) (module : string) : bool :=
  match import_module module with
  | Returns _ => true
  | Raises _ => false
  end.

Definition tolerated (import_module : string -> pyresult unit) (module : string) : bool :=
  match import_module module with
  | Returns _ => true
  | Raises e => ExperimentSetup.is_ImportError e
  end.



(** A string without the separator of experiment names. *)
Fixpoint hyphen_free (s : string) : bool :=
  match s with
  | EmptyString => true
  | String c s' => negb (Ascii.eqb c "-") && hyphen_free s'
  end.




(** An environment as Domino sets it up. *)
Definition sample_process : process :=
  {| environ := <["DOMINO_PROJECT_NAME" := "retail"]>
                (<["DOMINO_STARTING_USERNAME" := "ada"]>
                (<["DOMINO_RUN_ID" := "65f0c"]> ∅));
     mlflow_calls := [];
     stdout := [] |}.

(** * Properties *)

Import ExperimentSetup TracingSetup.

(** ** experiment_setup.py *)

Lemma environ_get_Some (p : process) (name dflt value : string) :
  environ p !! name = Some value -> environ_get p name dflt = value.
Proof. unfold environ_get. intros ->. reflexivity. Qed.

Lemma environ_get_None (p : process) (name dflt : string) :
  environ p !! name = None -> environ_get p name dflt = dflt.
Proof. unfold environ_get. intros ->. reflexivity. Qed.

(** The name is registered with MLflow and echoed; the environment is only
    read. *)
Lemma setup_experiment_effects (base_name : string) (p : process) :
  let '(name, p') := setup_experiment base_name p in
  environ p' = environ p /\
  mlflow_calls p' = mlflow_calls p ++ [set_experiment name] /\
  stdout p' = stdout p ++ ["Experiment set: " +:+ name].
Proof. cbn. auto. Qed.

(** C1: for every base name and every environment, [setup_experiment]
    returns the concatenation base-project-user, where project and user are
    the values of DOMINO_PROJECT_NAME and DOMINO_STARTING_USERNAME, each
    replaced by "unknown" when the variable is unset. *)
Theorem setup_experiment_name (base_name : string) (p : process) :
  fst (setup_experiment base_name p) =
    base_name +:+ "-"
      +:+ default "unknown" (environ p !! "DOMINO_PROJECT_NAME") +:+ "-"
      +:+ default "unknown" (environ p !! "DOMINO_STARTING_USERNAME").
Proof. reflexivity. Qed.

Example setup_experiment_both_set :
  fst (setup_experiment "churn"
         (Process (<["DOMINO_PROJECT_NAME" := "retail"]>
                   (<["DOMINO_STARTING_USERNAME" := "ada"]> ∅)) [] []))
  = "churn-retail-ada".
Proof. reflexivity. Qed.

Example setup_experiment_none_set :
  fst (setup_experiment "churn" (Process ∅ [] [])) = "churn-unknown-unknown".
Proof. reflexivity. Qed.

(** C2: the mapping [log_domino_context] sends to [mlflow.set_tags] has
    exactly the four keys domino.user, domino.project, domino.run_id and
    domino.hardware_tier, each bound to the value of its environment
    variable, or to "unknown" when that variable is unset. *)
Theorem log_domino_context_tags (p : process) :
  exists tags : gmap string string,
    mlflow_calls (log_domino_context p) = mlflow_calls p ++ [set_tags tags] /\
    dom tags =
      ({[ "domino.user"; "domino.project"; "domino.run_id";
          "domino.hardware_tier" ]} : gset string) /\
    tags !! "domino.user" =
      Some (default "unknown" (environ p !! "DOMINO_STARTING_USERNAME")) /\
    tags !! "domino.project" =
      Some (default "unknown" (environ p !! "DOMINO_PROJECT_NAME")) /\
    tags !! "domino.run_id" =
      Some (default "unknown" (environ p !! "DOMINO_RUN_ID")) /\
    tags !! "domino.hardware_tier" =
      Some (default "unknown" (environ p !! "DOMINO_HARDWARE_TIER_NAME")).
Proof.
  exists (domino_tags p). split; [reflexivity |]. split.
  - unfold domino_tags. rewrite !dom_insert_L, dom_empty_L. set_solver.
  - unfold domino_tags, environ_get. repeat split; by simplify_map_eq.
Qed.

(** C8: [enable_large_artifact_upload] sets
    MLFLOW_ENABLE_PROXY_MULTIPART_UPLOAD to "true" and
    MLFLOW_MULTIPART_UPLOAD_CHUNK_SIZE to "104857600", and every other
    environment variable keeps the binding (or the absence of one) it had. *)
Theorem enable_large_artifact_upload_frame (p : process) :
  let p' := enable_large_artifact_upload p in
  environ p' !! "MLFLOW_ENABLE_PROXY_MULTIPART_UPLOAD" = Some "true" /\
  environ p' !! "MLFLOW_MULTIPART_UPLOAD_CHUNK_SIZE" = Some "104857600" /\
  (forall name : string,
     name <> "MLFLOW_ENABLE_PROXY_MULTIPART_UPLOAD" ->
     name <> "MLFLOW_MULTIPART_UPLOAD_CHUNK_SIZE" ->
     environ p' !! name = environ p !! name) /\
  mlflow_calls p' = mlflow_calls p.
Proof.
  cbn. repeat split.
  - by simplify_map_eq.
  - by simplify_map_eq.
  - intros name H1 H2. by rewrite !lookup_insert_ne.
Qed.

(** ** tracing_setup.py *)

Lemma supported_frameworks_spec (framework : string) :
  framework ∈ supported_frameworks <->
  framework = "openai" \/ framework = "anthropic" \/ framework = "langchain".
Proof.
  unfold supported_frameworks.
  rewrite !elem_of_cons, elem_of_nil. tauto.
Qed.

(** A supported name reaches its autolog call, and what follows depends on
    that call alone. *)
Lemma setup_tracing_supported (autolog_call : string -> pyresult unit)
    (framework : string) (p : process) :
  framework ∈ supported_frameworks ->
  setup_tracing autolog_call framework p =
    match autolog_call framework with
    | Returns _ =>
        (Returns tt,
         {| environ := environ p;
            mlflow_calls := mlflow_calls p ++ [autolog framework];
            stdout := stdout p ++ [tracing_line framework] |})
    | Raises e => (Raises e, p)
    end.
Proof.
  rewrite supported_frameworks_spec. unfold setup_tracing.
  intros [-> | [-> | ->]]; cbn;
    match goal with |- context [autolog_call ?f] => by destruct (autolog_call f) end.
Qed.

Lemma setup_tracing_unsupported (autolog_call : string -> pyresult unit)
    (framework : string) (p : process) :
  framework ∉ supported_frameworks ->
  setup_tracing autolog_call framework p = (Raises (unknown_framework framework), p).
Proof.
  rewrite supported_frameworks_spec. intros Hn. unfold setup_tracing.
  destruct (String.eqb_spec framework "openai") as [-> | H1]; [tauto |].
  destruct (String.eqb_spec framework "anthropic") as [-> | H2]; [tauto |].
  destruct (String.eqb_spec framework "langchain") as [-> | H3]; [tauto |].
  reflexivity.
Qed.

(** C3, as stated, fails: in an interpreter without the anthropic package
    the supported name anthropic makes [setup_tracing] raise, because the
    autolog call it makes raises. *)
Lemma setup_tracing_raises_iff_counterexample :
  ~ ((exists e, fst (setup_tracing anthropic_missing "anthropic" (Process ∅ [] []))
                = Raises e) <->
     "anthropic" ∉ supported_frameworks).
Proof.
  intros [Hraises _]. apply Hraises.
  - eexists. reflexivity.
  - apply supported_frameworks_spec. auto.
Qed.

(** C3, amended: [setup_tracing] raises exactly when the framework is none
    of openai, anthropic, langchain, or the autolog call of the framework
    raises.  For an unsupported name the error is a ValueError whose message
    quotes the rejected value and lists the three accepted ones, raised
    before anything is done; for a supported name an exception of the autolog
    call is raised as it is, and otherwise the call is recorded and
    [setup_tracing] returns normally. *)
Theorem setup_tracing_raises (autolog_call : string -> pyresult unit)
    (framework : string) (p : process) :
  ((exists e, fst (setup_tracing autolog_call framework p) = Raises e) <->
   framework ∉ supported_frameworks \/
   (framework ∈ supported_frameworks /\ exists e, autolog_call framework = Raises e)) /\
  (framework ∉ supported_frameworks ->
   setup_tracing autolog_call framework p =
     (Raises (Exn ValueError
                ("Unknown framework: " +:+ framework +:+
                 ". Use 'openai', 'anthropic', or 'langchain'")), p)) /\
  (framework ∈ supported_frameworks ->
   forall e, autolog_call framework = Raises e ->
   setup_tracing autolog_call framework p = (Raises e, p)) /\
  (framework ∈ supported_frameworks ->
   (exists u, autolog_call framework = Returns u) ->
   fst (setup_tracing autolog_call framework p) = Returns tt /\
   mlflow_calls (snd (setup_tracing autolog_call framework p)) =
     mlflow_calls p ++ [autolog framework]).
Proof.
  destruct (decide (framework ∈ supported_frameworks)) as [Hin | Hnot].
  - rewrite (setup_tracing_supported _ _ _ Hin).
    destruct (autolog_call framework) as [u | e0]; cbn.
    + split; [| split; [| split]].
      * split; [intros [e He]; discriminate |].
        intros [Hn | [_ [e He]]]; [contradiction | discriminate].
      * intros Hn. contradiction.
      * intros _ e He. discriminate.
      * intros _ _. split; reflexivity.
    + split; [| split; [| split]].
      * split; [| intros _; by eexists].
        intros _. right. split; [assumption | by eexists].
      * intros Hn. contradiction.
      * by intros _ e [= ->].
      * intros _ [u Hu]. discriminate.
  - rewrite (setup_tracing_unsupported _ _ _ Hnot). cbn.
    split; [| split; [| split]].
    + split; [intros _; by left | intros _; by eexists].
    + intros _. reflexivity.
    + intros Hin. contradiction.
    + intros Hin. contradiction.
Qed.

Example setup_tracing_unknown :
  setup_tracing autolog_returns "llamaindex" (Process ∅ [] []) =
    (Raises (Exn ValueError
       "Unknown framework: llamaindex. Use 'openai', 'anthropic', or 'langchain'"),
     Process ∅ [] []).
Proof. reflexivity. Qed.

Example setup_tracing_openai :
  setup_tracing autolog_returns "openai" (Process ∅ [] []) =
    (Returns tt, Process ∅ [autolog "openai"] ["Enabled OpenAI auto-tracing"]).
Proof. reflexivity. Qed.

Lemma add_aggregations_app (acc : list (string * string)) (name : string) :
  add_aggregations acc name = acc ++ aggregations_of name.
Proof.
  unfold add_aggregations, aggregations_of.
  destruct (py_in name ["response_length"; "latency"]),
           (py_in name ["quality_score"; "confidence"]);
    cbn; rewrite <- ?app_assoc; reflexivity.
Qed.

Lemma foldl_add_aggregations (names : list string) (acc : list (string * string)) :
  foldl add_aggregations acc names = acc ++ concat (map aggregations_of names).
Proof.
  revert acc. induction names as [| name names IH]; intros acc; cbn.
  - by rewrite app_nil_r.
  - by rewrite IH, add_aggregations_app, <- app_assoc.
Qed.

(** The names are handled one after the other, each on its own. *)
Lemma get_aggregation_metrics_concat (names : list string) :
  get_aggregation_metrics (Some names) = concat (map aggregations_of names).
Proof. unfold get_aggregation_metrics. cbn. apply foldl_add_aggregations. Qed.

(** C6: on the list quality_score, response_length the builder returns the
    four pairs (quality_score, mean), (quality_score, min),
    (response_length, mean), (response_length, max), in this order. *)
Theorem get_aggregation_metrics_default_pair :
  get_aggregation_metrics (Some ["quality_score"; "response_length"]) =
    [("quality_score", "mean"); ("quality_score", "min");
     ("response_length", "mean"); ("response_length", "max")].
Proof. vm_compute. reflexivity. Qed.

(** *** create_evaluator *)

Lemma py_in_true (x : string) (xs : list string) : py_in x xs = true <-> x ∈ xs.
Proof. unfold py_in. apply bool_decide_eq_true. Qed.

Lemma py_in_false (x : string) (xs : list string) : py_in x xs = false <-> x ∉ xs.
Proof. unfold py_in. apply bool_decide_eq_false. Qed.

(** The three entries of the result, one at a time. *)
Lemma create_evaluator_response_length X metrics inputs output :
  create_evaluator X metrics inputs output !! "response_length" =
    if py_in "response_length" (default ["quality_score"; "response_length"] metrics)
    then Some (response_length X output) else None.
Proof.
  unfold create_evaluator.
  repeat match goal with |- context [if ?b then _ else _] => destruct b end;
    by simplify_map_eq.
Qed.

Lemma create_evaluator_quality_score X metrics inputs output :
  create_evaluator X metrics inputs output !! "quality_score" =
    if py_in "quality_score" (default ["quality_score"; "response_length"] metrics)
    then Some (VFloat float_0_8) else None.
Proof.
  unfold create_evaluator.
  repeat match goal with |- context [if ?b then _ else _] => destruct b end;
    by simplify_map_eq.
Qed.

Lemma create_evaluator_confidence X metrics inputs output :
  create_evaluator X metrics inputs output !! "confidence" =
    if py_in "confidence" (default ["quality_score"; "response_length"] metrics)
       && is_dict output
    then Some (dict_get (as_dict output) "confidence" (VInt 0)) else None.
Proof.
  unfold create_evaluator.
  repeat match goal with |- context [if ?b then _ else _] => destruct b end;
    by simplify_map_eq.
Qed.

Lemma create_evaluator_other X metrics inputs output (k : string) :
  k <> "response_length" -> k <> "quality_score" -> k <> "confidence" ->
  create_evaluator X metrics inputs output !! k = None.
Proof.
  intros H1 H2 H3. unfold create_evaluator.
  repeat match goal with |- context [if ?b then _ else _] => destruct b end;
    by simplify_map_eq.
Qed.

(** The literals are the floats nearest to the decimal they are written
    with, and are binary64 values. *)
Lemma float_0_8_nearest :
  float_0_8 = SFdiv prec emax (float_of_Z 8) (float_of_Z 10).
Proof. vm_compute. reflexivity. Qed.

Lemma float_0_5_exact :
  float_0_5 = SFdiv prec emax (float_of_Z 1) (float_of_Z 2).
Proof. vm_compute. reflexivity. Qed.

Lemma float_0_1_nearest :
  float_0_1 = SFdiv prec emax (float_of_Z 1) (float_of_Z 10).
Proof. vm_compute. reflexivity. Qed.

Lemma float_1_exact : float_1 = float_of_Z 1.
Proof. vm_compute. reflexivity. Qed.

Lemma literals_valid :
  Forall (fun f => valid_binary prec emax f = true)
    [float_0; float_0_1; float_0_5; float_0_8; float_1; float_10].
Proof. repeat constructor. Qed.

(** C4: with the default metrics, on a string output [s] the evaluator
    reports the number of characters of [s] as response_length and the
    float 0.8 as quality_score, whatever the inputs. *)
Theorem default_evaluator_on_string X (inputs : gmap string pyval) (s : string) :
  create_evaluator X None inputs (VStr s) !! "response_length" =
    Some (VInt (Z.of_nat (String.length s))) /\
  create_evaluator X None inputs (VStr s) !! "quality_score" =
    Some (VFloat float_0_8).
Proof.
  rewrite create_evaluator_response_length, create_evaluator_quality_score.
  split; reflexivity.
Qed.

(** C5: with the default metrics, on a mapping that has a "response" key
    the response_length is the length of the string form of the value under
    that key; the string form of the mapping itself plays no part. *)
Theorem default_evaluator_on_response_dict X (inputs d : gmap string pyval) (v : pyval) :
  d !! "response" = Some v ->
  create_evaluator X None inputs (VDict d) !! "response_length" =
    Some (VInt (Z.of_nat (String.length (py_str X v)))).
Proof.
  intros Hv. rewrite create_evaluator_response_length. cbn.
  unfold dict_get. rewrite Hv. reflexivity.
Qed.

Lemma default_evaluator_on_response_dict_witness :
  create_evaluator online None ∅ (VDict sample_output) !! "response_length" =
    Some (VInt 2).
Proof.
  apply (default_evaluator_on_response_dict online ∅ sample_output (VStr "Hi")).
  reflexivity.
Defined.

(** C10: the keys of the result are among response_length, quality_score
    and confidence, and each was requested.  confidence is present exactly
    when it was requested and the output is a mapping; its value is then the
    entry of the mapping, or 0 when the mapping has none. *)
Theorem create_evaluator_keys X (metrics : option (list string))
    (inputs : gmap string pyval) (output : pyval) :
  let requested := default ["quality_score"; "response_length"] metrics in
  let scores := create_evaluator X metrics inputs output in
  (forall k : string, is_Some (scores !! k) ->
     k ∈ ["response_length"; "quality_score"; "confidence"] /\ k ∈ requested) /\
  (is_Some (scores !! "confidence") <->
     "confidence" ∈ requested /\ is_dict output = true) /\
  (forall d : gmap string pyval, output = VDict d -> "confidence" ∈ requested ->
     scores !! "confidence" = Some (default (VInt 0) (d !! "confidence"))) /\
  (is_dict output = false -> scores !! "confidence" = None).
Proof.
  intros requested scores. subst scores.
  split; [| split; [| split]].
  - (* only requested keys, among the three *)
    intros k [v Hk].
    destruct (decide (k = "response_length")) as [-> | H1].
    { split; [rewrite !elem_of_cons; auto |]. revert Hk.
      rewrite create_evaluator_response_length. fold requested.
      destruct (py_in _ requested) eqn:Hin; [intros _; by apply py_in_true | done]. }
    destruct (decide (k = "quality_score")) as [-> | H2].
    { split; [rewrite !elem_of_cons; auto |]. revert Hk.
      rewrite create_evaluator_quality_score. fold requested.
      destruct (py_in _ requested) eqn:Hin; [intros _; by apply py_in_true | done]. }
    destruct (decide (k = "confidence")) as [-> | H3].
    { split; [rewrite !elem_of_cons; auto |]. revert Hk.
      rewrite create_evaluator_confidence. fold requested.
      destruct (py_in _ requested) eqn:Hin; [intros _; by apply py_in_true | done]. }
    rewrite create_evaluator_other in Hk by assumption. discriminate.
  - (* confidence: requested and a mapping *)
    rewrite create_evaluator_confidence. fold requested. split.
    + intros [v Hv]. revert Hv.
      destruct (py_in _ requested) eqn:Hin; [| done].
      destruct (is_dict output); [| done].
      intros _. split; [by apply py_in_true | reflexivity].
    + intros [Hin Hd]. apply py_in_true in Hin. rewrite Hin, Hd. cbn. eauto.
  - (* its value *)
    intros d -> Hin. rewrite create_evaluator_confidence. fold requested.
    apply py_in_true in Hin. rewrite Hin. reflexivity.
  - (* never for another kind of output *)
    intros Hd. rewrite create_evaluator_confidence, Hd, andb_false_r. reflexivity.
Qed.

Example confidence_omitted_for_string :
  create_evaluator online (Some ["confidence"; "quality_score"]) ∅ (VStr "Hi")
    !! "confidence" = None.
Proof. reflexivity. Qed.

Example confidence_defaults_to_zero :
  create_evaluator online (Some ["confidence"]) ∅ (VDict sample_output)
    !! "confidence" = Some (VInt 0).
Proof. reflexivity. Qed.

(** *** Binary64 division by ten

    [max(0, min(10, score)) / 10] divides a float of [(0, 10)] by ten, or the
    integer [0] or [10].  The lemmas below follow the float division down to
    its rounding step to bound the quotient. *)

Section Binary64.
Local Open Scope Z_scope.

Lemma fexp_b64 (e : Z) : fexp prec emax e = Z.max (e - 53) (-1074).
Proof. reflexivity. Qed.

Lemma digits2_pos_size (p : positive) : digits2_pos p = Pos.size p.
Proof. induction p as [p IH | p IH |]; simpl; congruence. Qed.

Lemma Zdigits2_nonneg (m : Z) : 0 <= Zdigits2 m.
Proof. destruct m; simpl; lia. Qed.

(** A non-negative integer below [2^k] has at most [k] binary digits. *)
Lemma Zdigits2_le (m k : Z) : 0 <= m -> 0 <= k -> m < 2 ^ k -> Zdigits2 m <= k.
Proof.
  intros Hm Hk Hlt. destruct m as [| p | p]; [simpl; lia | | lia].
  change (Zdigits2 (Z.pos p)) with (Z.pos (digits2_pos p)).
  rewrite digits2_pos_size.
  destruct (Z.le_gt_cases (Z.pos (Pos.size p)) k) as [|Hgt]; [assumption | exfalso].
  pose proof (Pos.size_le p) as Hsz.
  assert (Hp : 2 ^ Z.pos (Pos.size p) <= 2 * Z.pos p).
  { change (2 ^ Z.pos (Pos.size p)) with (Z.pos 2 ^ Z.pos (Pos.size p)).
    rewrite <- Pos2Z.inj_pow. change (2 * Z.pos p) with (Z.pos p~0).
    apply Pos2Z.pos_le_pos, Hsz. }
  assert (Hk2 : 2 ^ (k + 1) <= 2 ^ Z.pos (Pos.size p)) by (apply Z.pow_le_mono_r; lia).
  rewrite Z.pow_add_r in Hk2 by lia. lia.
Qed.

Lemma Zdigits2_gt (p : positive) : Z.pos p < 2 ^ Zdigits2 (Z.pos p).
Proof.
  change (Zdigits2 (Z.pos p)) with (Z.pos (digits2_pos p)).
  rewrite digits2_pos_size.
  change 2 with (Z.pos 2). rewrite <- Pos2Z.inj_pow.
  apply Pos2Z.pos_lt_pos, Pos.size_gt.
Qed.

(** One step of [shr] halves a non-negative mantissa. *)
Lemma shr_1_m (mrs : shr_record) :
  0 <= shr_m mrs -> shr_m (shr_1 mrs) = shr_m mrs / 2.
Proof.
  destruct mrs as [m r s]. cbn [shr_m]. intros Hm.
  destruct m as [| [p | p |] | p]; cbn [shr_1 shr_m]; try reflexivity; try lia.
  - rewrite Pos2Z.inj_xI. apply (Z.div_unique _ 2 _ 1); lia.
  - rewrite Pos2Z.inj_xO. apply (Z.div_unique _ 2 _ 0); lia.
Qed.

Lemma iter_pos_shr_1_m (p : positive) (mrs : shr_record) :
  0 <= shr_m mrs ->
  shr_m (SpecFloat.iter_pos shr_1 p mrs) = shr_m mrs / 2 ^ Z.pos p.
Proof.
  revert mrs.
  induction p as [p IH | p IH |]; intros mrs Hm; cbn [SpecFloat.iter_pos].
  - assert (H1 : 0 <= shr_m (shr_1 mrs)) by (rewrite shr_1_m by assumption; apply Z.div_pos; lia).
    assert (H2 : 0 <= shr_m (SpecFloat.iter_pos shr_1 p (shr_1 mrs))) by (rewrite IH by assumption; apply Z.div_pos; lia).
    rewrite IH, IH, shr_1_m by assumption.
    rewrite !Z.div_div by lia. f_equal.
    rewrite Pos2Z.inj_xI, <- Z.pow_add_r, <- Z.pow_succ_r by lia. f_equal. lia.
  - assert (H2 : 0 <= shr_m (SpecFloat.iter_pos shr_1 p mrs)) by (rewrite IH by assumption; apply Z.div_pos; lia).
    rewrite IH, IH by assumption.
    rewrite Z.div_div by lia. f_equal.
    rewrite Pos2Z.inj_xO, <- Z.pow_add_r by lia. f_equal. lia.
  - rewrite shr_1_m by assumption. reflexivity.
Qed.

Lemma shr_record_of_loc_m (m : Z) (l : location) : shr_m (shr_record_of_loc m l) = m.
Proof. destruct l as [| []]; reflexivity. Qed.

(** [shr_fexp] drops the bits below the exponent the format asks for. *)
Lemma shr_fexp_spec (m e : Z) (l : location) :
  0 <= m ->
  snd (shr_fexp prec emax m e l) = Z.max e (fexp prec emax (Zdigits2 m + e)) /\
  shr_m (fst (shr_fexp prec emax m e l)) = m / 2 ^ (snd (shr_fexp prec emax m e l) - e).
Proof.
  intros Hm. unfold shr_fexp, shr.
  destruct (fexp prec emax (Zdigits2 m + e) - e) as [| n | n] eqn:Hn; cbn [fst snd].
  - split; [lia |]. rewrite shr_record_of_loc_m, Z.sub_diag, Z.pow_0_r, Z.div_1_r. reflexivity.
  - split; [lia |].
    rewrite iter_pos_shr_1_m by (rewrite shr_record_of_loc_m; assumption).
    rewrite shr_record_of_loc_m. do 2 f_equal. lia.
  - split; [lia |]. rewrite shr_record_of_loc_m, Z.sub_diag, Z.pow_0_r, Z.div_1_r. reflexivity.
Qed.

Lemma round_nearest_even_bounds (m : Z) (l : location) :
  m <= round_nearest_even m l <= m + 1.
Proof.
  destruct l as [| []]; cbn [round_nearest_even]; try lia.
  destruct (Z.even m); lia.
Qed.

(** Rounding a non-negative quantity [m * 2^e] below one gives a float in
    [[0, 1]]: rounding to nearest can reach one but not pass it. *)
Lemma binary_round_aux_unit_interval (m e : Z) (l : location) :
  0 <= m -> e <= -53 -> m < 2 ^ (- e) ->
  SFleb float_0 (binary_round_aux prec emax false m e l) = true /\
  SFleb (binary_round_aux prec emax false m e l) float_1 = true.
Proof.
  intros Hm He Hlt. unfold binary_round_aux.
  pose proof (shr_fexp_spec m e l Hm) as [He1 Hm1].
  destruct (shr_fexp prec emax m e l) as [mrs1 e1]. cbn [fst snd] in He1, Hm1.
  assert (Hd : Zdigits2 m <= - e) by (apply Zdigits2_le; lia).
  rewrite fexp_b64 in He1.
  assert (He1' : e <= e1 <= -53) by lia.
  assert (Hm1' : 0 <= shr_m mrs1 < 2 ^ (- e1)).
  { rewrite Hm1. split.
    - apply Z.div_pos; [assumption | apply Z.pow_pos_nonneg; lia].
    - apply Z.div_lt_upper_bound; [apply Z.pow_pos_nonneg; lia |].
      rewrite <- Z.pow_add_r by lia.
      replace (e1 - e + - e1) with (- e) by lia. assumption. }
  pose proof (round_nearest_even_bounds (shr_m mrs1) (loc_of_shr_record mrs1)) as Hr.
  set (m2 := round_nearest_even (shr_m mrs1) (loc_of_shr_record mrs1)) in *.
  assert (Hm2 : 0 <= m2 <= 2 ^ (- e1)) by lia.
  pose proof (shr_fexp_spec m2 e1 loc_Exact (proj1 Hm2)) as [He2 Hm3].
  destruct (shr_fexp prec emax m2 e1 loc_Exact) as [mrs2 e2]. cbn [fst snd] in He2, Hm3.
  assert (Hd2 : Zdigits2 m2 <= - e1 + 1).
  { apply Zdigits2_le; [lia | lia |].
    rewrite Z.pow_add_r, Z.pow_1_r by lia.
    assert (0 < 2 ^ (- e1)) by (apply Z.pow_pos_nonneg; lia). lia. }
  rewrite fexp_b64 in He2.
  assert (He2' : e1 <= e2 <= -52) by lia.
  assert (Hm3' : 0 <= shr_m mrs2 <= 2 ^ (- e2)).
  { rewrite Hm3. split.
    - apply Z.div_pos; [lia | apply Z.pow_pos_nonneg; lia].
    - apply Z.div_le_upper_bound; [apply Z.pow_pos_nonneg; lia |].
      rewrite <- Z.pow_add_r by lia.
      replace (e2 - e1 + - e2) with (- e1) by lia. lia. }
  destruct (shr_m mrs2) as [| p | p]; [split; reflexivity | | lia].
  replace (e2 <=? emax - prec) with true by (symmetry; apply Z.leb_le; unfold emax, prec; lia).
  split; [reflexivity |].
  unfold SFleb, SFcompare, float_1.
  destruct (Z.compare_spec e2 (-52)) as [Heq | Hlt2 | Hgt]; [| reflexivity | lia].
  rewrite Heq in Hm3'. change (2 ^ (- -52)) with (Z.pos 4503599627370496) in Hm3'.
  rewrite Pos.compare_cont_spec.
  destruct (Pos.compare_spec p 4503599627370496) as [| | Hgt]; try reflexivity.
  apply Pos2Z.pos_lt_pos in Hgt. lia.
Qed.

(** The integer quotient [SFdiv] hands to the rounding step. *)
Lemma SFdiv_core_binary_spec (m1 e1 m2 e2 : Z) :
  let e' := Z.min (fexp prec emax (Zdigits2 m1 + e1 - (Zdigits2 m2 + e2))) (e1 - e2) in
  exists l,
    SFdiv_core_binary prec emax m1 e1 m2 e2 = (m1 * 2 ^ (e1 - e2 - e') / m2, e', l).
Proof.
  intros e'. unfold SFdiv_core_binary. fold e'.
  set (s := e1 - e2 - e').
  assert (Hs : 0 <= s) by (unfold s, e'; lia).
  set (m' := match s with Z.pos _ => Z.shiftl m1 s | 0 => m1 | Z.neg _ => 0 end).
  assert (Hm' : m' = m1 * 2 ^ s).
  { unfold m'. destruct s as [| n | n]; [rewrite Z.pow_0_r; lia | | lia].
    apply Z.shiftl_mul_pow2. lia. }
  unfold Z.div. rewrite <- Hm'.
  destruct (Z.div_eucl m' m2) as [q r]. eexists. reflexivity.
Qed.

(** [x < 10.0] for a positive finite float, read on exponent and mantissa. *)
Lemma SFltb_10_inv (mx : positive) (ex : Z) :
  SFltb (S754_finite false mx ex) float_10 = true ->
  ex < -49 \/ ex = -49 /\ Z.pos mx < 5629499534213120.
Proof.
  unfold SFltb, SFcompare, float_10. intros Hlt.
  destruct (Z.compare_spec ex (-49)) as [Heq | Hl | Hg]; [| left; assumption | discriminate].
  right. split; [assumption |].
  rewrite Pos.compare_cont_spec in Hlt.
  destruct (Pos.compare_spec mx 5629499534213120) as [| Hl |]; try discriminate.
  apply Pos2Z.pos_lt_pos in Hl. exact Hl.
Qed.

(** Dividing a float of the open interval [(0, 10)] by ten lands in
    [[0, 1]]. *)
Lemma SFdiv_10_unit_interval (x : spec_float) :
  valid_binary prec emax x = true ->
  SFltb float_0 x = true ->
  SFltb x float_10 = true ->
  SFleb float_0 (SFdiv prec emax x float_10) = true /\
  SFleb (SFdiv prec emax x float_10) float_1 = true.
Proof.
  intros Hvalid Hpos Hlt.
  destruct x as [s | s | | s mx ex]; try discriminate.
  - destruct s; discriminate.
  - destruct s; [discriminate |].
    unfold valid_binary, bounded, canonical_mantissa in Hvalid.
    apply andb_prop in Hvalid. destruct Hvalid as [Hcanon _].
    apply Z.eqb_eq in Hcanon. rewrite fexp_b64 in Hcanon.
    change (Z.pos (digits2_pos mx)) with (Zdigits2 (Z.pos mx)) in Hcanon.
    pose proof (Zdigits2_gt mx) as Hmx.
    pose proof (Zdigits2_nonneg (Z.pos mx)) as Hd0.
    set (d := Zdigits2 (Z.pos mx)) in *.
    assert (Hd : 0 <= d <= 53) by lia.
    apply SFltb_10_inv in Hlt. rename Hlt into Hten.
    unfold SFdiv, float_10.
    destruct (SFdiv_core_binary_spec (Z.pos mx) ex (Z.pos 5629499534213120) (-49)) as [l Hcore].
    rewrite Hcore. cbv zeta.
    change (Zdigits2 (Z.pos 5629499534213120)) with 53. fold d.
    rewrite fexp_b64.
    set (e' := Z.min (Z.max (d + ex - (53 + -49) - 53) (-1074)) (ex - -49)).
    change (xorb false false) with false.
    assert (He' : e' <= -53) by (unfold e'; lia).
    assert (Hs : 0 <= ex - -49 - e') by (unfold e'; lia).
    apply binary_round_aux_unit_interval.
    + apply Z.div_pos; [| lia].
      apply Z.mul_nonneg_nonneg; [lia | apply Z.pow_nonneg; lia].
    + exact He'.
    + apply Z.div_lt_upper_bound; [lia |].
      (* mx * 2^s < ten * 2^(-e'), where s - e' = -(ex + 49) *)
      set (k := - (ex + 49)).
      assert (Hk : 0 <= k) by (unfold k; lia).
      replace (- e') with (k + (ex - -49 - e')) by (unfold k; lia).
      rewrite Z.pow_add_r by lia.
      assert (H2s : 0 < 2 ^ (ex - -49 - e')) by (apply Z.pow_pos_nonneg; lia).
      assert (Hmk : Z.pos mx < 5629499534213120 * 2 ^ k).
      { destruct Hten as [Hl | [Heq Hl]].
        - assert (H53 : 2 ^ d <= 2 ^ 53) by (apply Z.pow_le_mono_r; lia).
          assert (H2k : 2 ^ 1 <= 2 ^ k) by (apply Z.pow_le_mono_r; unfold k; lia).
          change (2 ^ 53) with 9007199254740992 in H53.
          change (2 ^ 1) with 2 in H2k. lia.
        - replace k with 0 by (unfold k; lia). rewrite Z.pow_0_r. lia. }
      nia.
Qed.

End Binary64.

(** *** create_llm_judge_evaluator *)

Lemma float_of_Z_10 : float_of_Z 10 = float_10.
Proof. vm_compute. reflexivity. Qed.

Lemma float_of_Z_0 : float_of_Z 0 = float_0.
Proof. reflexivity. Qed.

(** The clamp, case by case: a score that is not below ten (a NaN included)
    becomes the integer [10], and what is then not above zero becomes the
    integer [0]; only a float of [(0, 10)] is itself divided. *)
Lemma normalize_score_cases (score : spec_float) :
  normalize_score score =
    if SFltb score float_10
    then if SFltb float_0 score
         then SFdiv prec emax score float_10
         else float_0
    else float_1.
Proof.
  unfold normalize_score, py_min.
  replace (num_lt (NFloat score) (NInt 10)) with (SFltb score float_10)
    by (unfold num_lt; cbn [to_float]; by rewrite float_of_Z_10).
  destruct (SFltb score float_10).
  - unfold py_max, num_gt.
    change (num_lt (NInt 0) (NFloat score)) with (SFltb float_0 score).
    destruct (SFltb float_0 score).
    + unfold py_truediv. cbn [to_float]. by rewrite float_of_Z_10.
    + vm_compute. reflexivity.
  - vm_compute. reflexivity.
Qed.

Lemma normalize_score_unit_interval (score : spec_float) :
  valid_binary prec emax score = true ->
  SFleb float_0 (normalize_score score) = true /\
  SFleb (normalize_score score) float_1 = true.
Proof.
  intros Hvalid. rewrite normalize_score_cases.
  destruct (SFltb score float_10) eqn:Hlt; [| split; reflexivity].
  destruct (SFltb float_0 score) eqn:Hpos; [| split; reflexivity].
  by apply SFdiv_10_unit_interval.
Qed.

(** The ways the [try] block can fail. *)
Lemma judge_score_raises (X : externals) (judge_model prompt : string) (e : exn) :
  let request :=
    {| model := judge_model;
       messages := [ <["content" := prompt]> (<["role" := "user"]> ∅) ];
       max_tokens := 10;
       temperature := float_0_1 |} in
  judge_score X judge_model prompt = Raises e <->
  chat_completions_create X request = Raises e \/
  (exists r, chat_completions_create X request = Returns r /\
     (first_choice (choices r) = Raises e \/
      exists c, first_choice (choices r) = Returns c /\
        (content_strip (content (message c)) = Raises e \/
         exists text, content_strip (content (message c)) = Returns text /\
           py_float X text = Raises e))).
Proof.
  intros request. unfold judge_score. fold request. split.
  - destruct (chat_completions_create X request) as [r | e1] eqn:H1; cbn;
      [| intros [= ->]; by left].
    intros H. right. exists r. split; [done |]. revert H.
    destruct (first_choice (choices r)) as [c | e2] eqn:H2; cbn;
      [| intros [= ->]; by left].
    intros H. right. exists c. split; [done |]. revert H.
    destruct (content_strip (content (message c))) as [text | e3] eqn:H3; cbn;
      [| intros [= ->]; by left].
    intros H. right. exists text. split; [done |]. revert H.
    destruct (py_float X text) as [f | e4]; cbn; [discriminate | by intros [= ->]].
  - intros [H | (r & H1 & [H2 | (c & H2 & [H3 | (text & H3 & H4)])])].
    + by rewrite H.
    + rewrite H1. cbn. by rewrite H2.
    + rewrite H1. cbn. rewrite H2. cbn. by rewrite H3.
    + rewrite H1. cbn. rewrite H2. cbn. rewrite H3. cbn. by rewrite H4.
Qed.

(** A scoring call that returns has parsed a float and normalised it. *)
Lemma judge_score_returns (X : externals) (judge_model prompt : string) (v : spec_float) :
  judge_score X judge_model prompt = Returns v ->
  exists (text : string) (raw : spec_float),
    py_float X text = Returns raw /\ v = normalize_score raw.
Proof.
  unfold judge_score.
  destruct (chat_completions_create X _) as [r |]; cbn; [| discriminate].
  destruct (first_choice (choices r)) as [c |]; cbn; [| discriminate].
  destruct (content_strip (content (message c))) as [text |]; cbn; [| discriminate].
  destruct (py_float X text) as [raw |] eqn:Hraw; cbn; [| discriminate].
  intros [= <-]. by exists text, raw.
Qed.

(** C7, as stated, fails for an exception that is no [Exception]: a
    KeyboardInterrupt raised while the request is under way is not caught by
    [except Exception] and leaves the evaluator. *)
Lemma llm_judge_failure_is_neutral_counterexample :
  OpenAI_new interrupted = Returns tt /\
  judge_score interrupted "gpt-4o-mini"
    (judge_prompt interrupted (extract_query interrupted ∅)
       (extract_response interrupted (VStr "Hi"))) =
    Raises (Exn KeyboardInterrupt "") /\
  ~ (exists scores : gmap string pyval,
       create_llm_judge_evaluator interrupted "gpt-4o-mini" ∅ (VStr "Hi") =
         Returns scores /\
       scores !! "llm_judge_score" = Some (VFloat float_0_5)).
Proof.
  split; [reflexivity |]. split; [reflexivity |].
  intros (scores & Hret & _). vm_compute in Hret. discriminate.
Qed.

(** C7, amended: once the client is built, if the scoring call (the request
    and the parsing of its answer) raises an exception that is an instance
    of [Exception], the evaluator does not propagate it and returns the
    neutral score 0.5 under llm_judge_score. *)
Theorem llm_judge_failure_is_neutral (X : externals) (judge_model : string)
    (inputs : gmap string pyval) (output : pyval) (e : exn) :
  OpenAI_new X = Returns tt ->
  judge_score X judge_model
    (judge_prompt X (extract_query X inputs) (extract_response X output)) = Raises e ->
  is_Exception e = true ->
  exists scores : gmap string pyval,
    create_llm_judge_evaluator X judge_model inputs output = Returns scores /\
    scores !! "llm_judge_score" = Some (VFloat float_0_5).
Proof.
  intros Hclient Hcall Hexn. unfold create_llm_judge_evaluator.
  rewrite Hclient. cbn. rewrite Hcall. cbn. rewrite Hexn. cbn.
  eexists. split; [reflexivity |]. by simplify_map_eq.
Qed.

Lemma llm_judge_failure_is_neutral_witness :
  exists scores : gmap string pyval,
    create_llm_judge_evaluator offline "gpt-4o-mini" ∅ (VStr "Hi") = Returns scores /\
    scores !! "llm_judge_score" = Some (VFloat float_0_5).
Proof.
  apply (llm_judge_failure_is_neutral offline "gpt-4o-mini" ∅ (VStr "Hi")
           (Exn ConnectionError "Connection error.")); reflexivity.
Defined.

(** An interrupt is not an [Exception]: it leaves the evaluator. *)
Lemma llm_judge_interrupt_propagates (X : externals) (judge_model : string)
    (inputs : gmap string pyval) (output : pyval) (e : exn) :
  OpenAI_new X = Returns tt ->
  judge_score X judge_model
    (judge_prompt X (extract_query X inputs) (extract_response X output)) = Raises e ->
  is_Exception e = false ->
  create_llm_judge_evaluator X judge_model inputs output = Raises e.
Proof.
  intros Hclient Hcall Hexn. unfold create_llm_judge_evaluator.
  rewrite Hclient. cbn. rewrite Hcall. cbn. rewrite Hexn. reflexivity.
Qed.

(** C9: when [float] yields binary64 values, the evaluator returns a
    mapping whose llm_judge_score is a float of [[0, 1]]: the answer of the
    judge, clamped to [[0, 10]] and divided by ten, when the scoring call
    succeeds, and 0.5 when it fails.  The evaluator raises only if the client
    cannot be built or the scoring call is interrupted. *)
Theorem llm_judge_score_in_unit_interval (X : externals) (judge_model : string)
    (inputs : gmap string pyval) (output : pyval) :
  (forall s f, py_float X s = Returns f -> valid_binary prec emax f = true) ->
  let call :=
    judge_score X judge_model
      (judge_prompt X (extract_query X inputs) (extract_response X output)) in
  match create_llm_judge_evaluator X judge_model inputs output with
  | Returns scores =>
      exists score : spec_float,
        scores !! "llm_judge_score" = Some (VFloat score) /\
        SFleb float_0 score = true /\ SFleb score float_1 = true /\
        match call with
        | Returns v =>
            score = v /\
            exists (text : string) (raw : spec_float),
              py_float X text = Returns raw /\ v = normalize_score raw
        | Raises _ => score = float_0_5
        end
  | Raises e =>
      OpenAI_new X = Raises e \/ (call = Raises e /\ is_Exception e = false)
  end.
Proof.
  intros Hfloat call. unfold create_llm_judge_evaluator. fold call.
  destruct (OpenAI_new X) as [[] | e0]; cbn; [| by left].
  destruct call as [v | e] eqn:Hcall; cbn.
  - exists v. split; [by simplify_map_eq |].
    destruct (judge_score_returns _ _ _ _ Hcall) as (text & raw & Hraw & ->).
    destruct (normalize_score_unit_interval raw (Hfloat text raw Hraw)) as [H0 H1].
    repeat split; try assumption. by exists text, raw.
  - destruct (is_Exception e) eqn:Hexn; cbn.
    + exists float_0_5. split; [by simplify_map_eq |]. repeat split.
    + right. done.
Qed.

Lemma sample_float_valid (s : string) (f : spec_float) :
  sample_float s = Returns f -> valid_binary prec emax f = true.
Proof.
  unfold sample_float.
  destruct (String.eqb s "7"); [intros [= <-]; reflexivity |].
  destruct (String.eqb s "nan"); [intros [= <-]; reflexivity | discriminate].
Qed.

Lemma llm_judge_score_in_unit_interval_witness :
  let call :=
    judge_score online "gpt-4o-mini"
      (judge_prompt online (extract_query online ∅) (extract_response online (VStr "Hi"))) in
  match create_llm_judge_evaluator online "gpt-4o-mini" ∅ (VStr "Hi") with
  | Returns scores =>
      exists score : spec_float,
        scores !! "llm_judge_score" = Some (VFloat score) /\
        SFleb float_0 score = true /\ SFleb score float_1 = true /\
        match call with
        | Returns v =>
            score = v /\
            exists (text : string) (raw : spec_float),
              py_float online text = Returns raw /\ v = normalize_score raw
        | Raises _ => score = float_0_5
        end
  | Raises e =>
      OpenAI_new online = Raises e \/ (call = Raises e /\ is_Exception e = false)
  end.
Proof.
  exact (llm_judge_score_in_unit_interval online "gpt-4o-mini" ∅ (VStr "Hi")
           sample_float_valid).
Defined.

(** The sample judge answers 7: the score is the float nearest to 0.7. *)
Example llm_judge_sample_score :
  exists scores : gmap string pyval,
    create_llm_judge_evaluator online "gpt-4o-mini" ∅ (VStr "Hi") = Returns scores /\
    scores !! "llm_judge_score" =
      Some (VFloat (S754_finite false 6305039478318694 (-53))) /\
    scores !! "judge_model" = Some (VStr "gpt-4o-mini").
Proof. eexists. split; [reflexivity |]. split; reflexivity. Qed.

(** A judge that answers nan is scored 1.0: [min(10, nan)] is [10]. *)
Example normalize_score_nan : normalize_score S754_nan = float_1.
Proof. vm_compute. reflexivity. Qed.

(** * Further properties *)

(** ** setup_autolog *)







Lemma tolerated_of_imports import_module module :
  imports import_module module = true -> tolerated import_module module = true.
Proof. unfold imports, tolerated. by destruct (import_module module). Qed.












(** ** Experiment names *)

Lemma append_cons (c : ascii) (a b : string) :
  String c a +:+ b = String c (a +:+ b).
Proof. reflexivity. Qed.

Lemma append_assoc (a b c : string) : (a +:+ b) +:+ c = a +:+ (b +:+ c).
Proof.
  induction a as [| x a IH]; [reflexivity |].
  by rewrite !append_cons, IH.
Qed.

(** The first separator of a name delimits a component without hyphen. *)
Lemma split_at_hyphen (a a' b b' : string) :
  hyphen_free a = true -> hyphen_free a' = true ->
  a +:+ "-" +:+ b = a' +:+ "-" +:+ b' ->
  a = a' /\ b = b'.
Proof.
  revert a'. induction a as [| c a IH]; intros [| c' a'] Ha Ha' Heq.
  - split; [reflexivity |]. by injection Heq.
  - exfalso. rewrite append_cons in Heq. injection Heq as <- _.
    cbn in Ha'. discriminate.
  - exfalso. rewrite append_cons in Heq. injection Heq as -> _.
    cbn in Ha. discriminate.
  - rewrite !append_cons in Heq. injection Heq as -> Heq.
    cbn in Ha, Ha'. apply andb_prop in Ha as [_ Ha]. apply andb_prop in Ha' as [_ Ha'].
    destruct (IH a' Ha Ha' Heq) as [-> ->]. done.
Qed.

(** X6: two calls of [setup_experiment] whose base names and projects have
    no hyphen return the same experiment name only if they agree on the base
    name, the project and the user. *)
Theorem setup_experiment_name_injective (base1 base2 : string) (p1 p2 : process) :
  hyphen_free base1 = true -> hyphen_free base2 = true ->
  hyphen_free (environ_get p1 "DOMINO_PROJECT_NAME" "unknown") = true ->
  hyphen_free (environ_get p2 "DOMINO_PROJECT_NAME" "unknown") = true ->
  fst (setup_experiment base1 p1) = fst (setup_experiment base2 p2) ->
  base1 = base2 /\
  environ_get p1 "DOMINO_PROJECT_NAME" "unknown" =
    environ_get p2 "DOMINO_PROJECT_NAME" "unknown" /\
  environ_get p1 "DOMINO_STARTING_USERNAME" "unknown" =
    environ_get p2 "DOMINO_STARTING_USERNAME" "unknown".
Proof.
  intros Hb1 Hb2 Hp1 Hp2 Heq. cbn [setup_experiment fst] in Heq.
  destruct (split_at_hyphen _ _ _ _ Hb1 Hb2 Heq) as [-> Hrest].
  destruct (split_at_hyphen _ _ _ _ Hp1 Hp2 Hrest) as [-> ->]. done.
Qed.

Lemma setup_experiment_name_injective_witness :
  "churn" = "churn" /\
  environ_get sample_process "DOMINO_PROJECT_NAME" "unknown" =
    environ_get sample_process "DOMINO_PROJECT_NAME" "unknown" /\
  environ_get sample_process "DOMINO_STARTING_USERNAME" "unknown" =
    environ_get sample_process "DOMINO_STARTING_USERNAME" "unknown".
Proof.
  apply (setup_experiment_name_injective "churn" "churn" sample_process sample_process);
    reflexivity.
Defined.

(** X7: the name does not keep project and user apart when they contain
    hyphens: project a-b with user c and project a with user b-c give the
    same experiment name. *)
Theorem setup_experiment_name_collision (base_name a b c : string) (p1 p2 : process) :
  environ p1 !! "DOMINO_PROJECT_NAME" = Some (a +:+ "-" +:+ b) ->
  environ p1 !! "DOMINO_STARTING_USERNAME" = Some c ->
  environ p2 !! "DOMINO_PROJECT_NAME" = Some a ->
  environ p2 !! "DOMINO_STARTING_USERNAME" = Some (b +:+ "-" +:+ c) ->
  fst (setup_experiment base_name p1) = fst (setup_experiment base_name p2).
Proof.
  intros H1 H2 H3 H4. cbn [setup_experiment fst]. unfold environ_get.
  rewrite H1, H2, H3, H4. cbn [default from_option]. unfold id.
  by rewrite !append_assoc.
Qed.

Lemma setup_experiment_name_collision_witness :
  fst (setup_experiment "churn"
         (Process (<["DOMINO_PROJECT_NAME" := "retail-eu"]>
                   (<["DOMINO_STARTING_USERNAME" := "ada"]> ∅)) [] [])) =
  fst (setup_experiment "churn"
         (Process (<["DOMINO_PROJECT_NAME" := "retail"]>
                   (<["DOMINO_STARTING_USERNAME" := "eu-ada"]> ∅)) [] [])).
Proof.
  apply (setup_experiment_name_collision "churn" "retail" "eu" "ada"); reflexivity.
Defined.

(** X8: after [setup_experiment], [log_domino_context] tags the run with
    the project and the user the experiment name was built from; the two
    calls reach MLflow in this order. *)
Theorem experiment_name_matches_tags (base_name : string) (p : process) :
  let name := fst (setup_experiment base_name p) in
  let p' := log_domino_context (snd (setup_experiment base_name p)) in
  exists (tags : gmap string string) (project user : string),
    mlflow_calls p' = mlflow_calls p ++ [set_experiment name; set_tags tags] /\
    tags !! "domino.project" = Some project /\
    tags !! "domino.user" = Some user /\
    name = base_name +:+ "-" +:+ project +:+ "-" +:+ user.
Proof.
  cbv zeta.
  exists (domino_tags (snd (setup_experiment base_name p))),
         (environ_get p "DOMINO_PROJECT_NAME" "unknown"),
         (environ_get p "DOMINO_STARTING_USERNAME" "unknown").
  split; [| split; [| split]].
  - cbn. by rewrite <- app_assoc.
  - unfold domino_tags. by simplify_map_eq.
  - unfold domino_tags. by simplify_map_eq.
  - reflexivity.
Qed.

(** ** enable_large_artifact_upload *)

Lemma enable_large_artifact_upload_environ (p : process) :
  environ (enable_large_artifact_upload p) =
    <["MLFLOW_MULTIPART_UPLOAD_CHUNK_SIZE" := "104857600"]>
      (<["MLFLOW_ENABLE_PROXY_MULTIPART_UPLOAD" := "true"]> (environ p)).
Proof. reflexivity. Qed.

(** X9: enabling large uploads twice leaves the environment as enabling
    them once. *)
Theorem enable_large_artifact_upload_idempotent (p : process) :
  environ (enable_large_artifact_upload (enable_large_artifact_upload p)) =
  environ (enable_large_artifact_upload p).
Proof.
  rewrite !enable_large_artifact_upload_environ.
  apply map_eq. intros name.
  rewrite !lookup_insert. by repeat case_decide.
Qed.

(** X10: enabling large uploads changes neither the experiment name
    [setup_experiment] computes nor the tags [log_domino_context] sends. *)
Theorem enable_large_artifact_upload_keeps_names (base_name : string) (p : process) :
  fst (setup_experiment base_name (enable_large_artifact_upload p)) =
    fst (setup_experiment base_name p) /\
  domino_tags (enable_large_artifact_upload p) = domino_tags p.
Proof.
  assert (Hget : forall name dflt,
            name <> "MLFLOW_ENABLE_PROXY_MULTIPART_UPLOAD" ->
            name <> "MLFLOW_MULTIPART_UPLOAD_CHUNK_SIZE" ->
            environ_get (enable_large_artifact_upload p) name dflt =
              environ_get p name dflt).
  { intros name dflt H1 H2. unfold environ_get.
    rewrite enable_large_artifact_upload_environ.
    by rewrite !lookup_insert_ne by done. }
  split.
  - cbn [setup_experiment fst]. by rewrite !Hget by done.
  - unfold domino_tags. by rewrite !Hget by done.
Qed.

(** ** create_evaluator, beyond the default case *)

Lemma create_evaluator_key_requested X (metrics : option (list string))
    (inputs : gmap string pyval) (output : pyval) (k : string) :
  is_Some (create_evaluator X metrics inputs output !! k) ->
  k ∈ default ["quality_score"; "response_length"] metrics.
Proof.
  intros [v Hk]. revert Hk.
  destruct (decide (k = "response_length")) as [-> | H1].
  { rewrite create_evaluator_response_length.
    destruct (py_in _ _) eqn:Hin; [intros _; by apply py_in_true | done]. }
  destruct (decide (k = "quality_score")) as [-> | H2].
  { rewrite create_evaluator_quality_score.
    destruct (py_in _ _) eqn:Hin; [intros _; by apply py_in_true | done]. }
  destruct (decide (k = "confidence")) as [-> | H3].
  { rewrite create_evaluator_confidence.
    destruct (py_in _ _) eqn:Hin; [intros _; by apply py_in_true | done]. }
  by rewrite create_evaluator_other.
Qed.

(** X11: a mapping without "response" but with "content" is measured on
    the string form of its content. *)
Theorem evaluator_content_fallback X (metrics : option (list string))
    (inputs d : gmap string pyval) (v : pyval) :
  "response_length" ∈ default ["quality_score"; "response_length"] metrics ->
  d !! "response" = None ->
  d !! "content" = Some v ->
  create_evaluator X metrics inputs (VDict d) !! "response_length" =
    Some (VInt (Z.of_nat (String.length (py_str X v)))).
Proof.
  intros Hin Hr Hc. rewrite create_evaluator_response_length.
  apply py_in_true in Hin. rewrite Hin. cbn. unfold dict_get.
  by rewrite Hr, Hc.
Qed.

Lemma evaluator_content_fallback_witness :
  create_evaluator online None ∅ (VDict (<["content" := VStr "Hello"]> ∅))
    !! "response_length" = Some (VInt 5).
Proof.
  apply (evaluator_content_fallback online None ∅
           (<["content" := VStr "Hello"]> ∅) (VStr "Hello")).
  - apply py_in_true. reflexivity.
  - reflexivity.
  - reflexivity.
Defined.

(** X12: an output that is no string, and that as a mapping has neither
    "response" nor "content", is measured on its own printed form. *)
Theorem evaluator_repr_fallback X (metrics : option (list string))
    (inputs : gmap string pyval) (output : pyval) :
  "response_length" ∈ default ["quality_score"; "response_length"] metrics ->
  (forall s, output <> VStr s) ->
  (forall d, output = VDict d -> d !! "response" = None /\ d !! "content" = None) ->
  create_evaluator X metrics inputs output !! "response_length" =
    Some (VInt (Z.of_nat (String.length (py_repr X output)))).
Proof.
  intros Hin Hstr Hdict. rewrite create_evaluator_response_length.
  apply py_in_true in Hin. rewrite Hin.
  destruct output as [| b | z | f | s | l | d]; try reflexivity.
  - by destruct (Hstr s).
  - destruct (Hdict d eq_refl) as [Hr Hc]. cbn. unfold dict_get.
    by rewrite Hr, Hc.
Qed.

Lemma evaluator_repr_fallback_witness :
  create_evaluator online None ∅ (VList [VInt 1; VInt 2]) !! "response_length" =
    Some (VInt (Z.of_nat
            (String.length (py_repr online (VList [VInt 1; VInt 2]))))).
Proof.
  apply (evaluator_repr_fallback online None ∅ (VList [VInt 1; VInt 2])).
  - apply py_in_true. reflexivity.
  - discriminate.
  - discriminate.
Defined.

(** X13: response_length and quality_score are reported exactly when they
    are requested, whatever the output; the first is a length, the second
    always 0.8. *)
Theorem evaluator_reports_requested X (metrics : option (list string))
    (inputs : gmap string pyval) (output : pyval) :
  let requested := default ["quality_score"; "response_length"] metrics in
  let scores := create_evaluator X metrics inputs output in
  ("response_length" ∈ requested <->
     exists n : nat, scores !! "response_length" = Some (VInt (Z.of_nat n))) /\
  ("response_length" ∉ requested <-> scores !! "response_length" = None) /\
  ("quality_score" ∈ requested <->
     scores !! "quality_score" = Some (VFloat float_0_8)) /\
  ("quality_score" ∉ requested <-> scores !! "quality_score" = None).
Proof.
  cbv zeta.
  rewrite create_evaluator_response_length, create_evaluator_quality_score.
  rewrite <- !py_in_true.
  assert (Hlen : exists n : nat, response_length X output = VInt (Z.of_nat n)).
  { destruct output as [| b | z | f | s | l | d]; cbn; unfold py_len; by eexists. }
  destruct Hlen as [n Hn].
  destruct (py_in "response_length" _), (py_in "quality_score" _);
    repeat split; try done;
    try (intros [? ?]; done);
    try (intros Hnot; by destruct Hnot);
    intros _; exists n; by rewrite Hn.
Qed.

(** X14: the evaluator depends on the metrics only through the names the
    list contains (neither order nor repetition matters), and not at all on
    the inputs. *)
Theorem evaluator_depends_on_membership X (metrics1 metrics2 : list string)
    (inputs1 inputs2 : gmap string pyval) (output : pyval) :
  (forall name, name ∈ metrics1 <-> name ∈ metrics2) ->
  create_evaluator X (Some metrics1) inputs1 output =
    create_evaluator X (Some metrics2) inputs2 output.
Proof.
  intros Hsame.
  assert (Hin : forall name, py_in name metrics1 = py_in name metrics2).
  { intros name. unfold py_in. apply bool_decide_ext, Hsame. }
  unfold create_evaluator. cbn [default from_option]. unfold id.
  by rewrite !Hin.
Qed.

Lemma evaluator_depends_on_membership_witness :
  create_evaluator online (Some ["confidence"; "quality_score"; "confidence"])
    ∅ (VDict sample_output) =
  create_evaluator online (Some ["quality_score"; "confidence"])
    (<["query" := VStr "What is MLflow?"]> ∅) (VDict sample_output).
Proof.
  apply (evaluator_depends_on_membership online).
  intros name. rewrite !elem_of_cons, elem_of_nil. tauto.
Defined.

(** X15: a metrics list that names none of the three known metrics (the
    empty list among them) gives an empty result; the default list is not
    substituted. *)
Theorem evaluator_unknown_metrics X (metrics : list string)
    (inputs : gmap string pyval) (output : pyval) :
  "response_length" ∉ metrics -> "quality_score" ∉ metrics ->
  "confidence" ∉ metrics ->
  create_evaluator X (Some metrics) inputs output = ∅.
Proof.
  intros H1 H2 H3. apply py_in_false in H1, H2, H3.
  unfold create_evaluator. cbn [default from_option]. unfold id.
  by rewrite H1, H2, H3.
Qed.

Lemma evaluator_unknown_metrics_witness :
  create_evaluator online (Some []) ∅ (VStr "Hi") = ∅.
Proof.
  apply (evaluator_unknown_metrics online [] ∅ (VStr "Hi"));
    apply not_elem_of_nil.
Defined.

(** ** create_llm_judge_evaluator, case by case *)

(** With a client, the evaluator is the guarded scoring call followed by the
    construction of the result. *)
Lemma create_llm_judge_evaluator_with_client X (judge_model : string)
    (inputs : gmap string pyval) (output : pyval) :
  OpenAI_new X = Returns tt ->
  create_llm_judge_evaluator X judge_model inputs output =
    match judge_score X judge_model
            (judge_prompt X (extract_query X inputs) (extract_response X output)) with
    | Returns v =>
        Returns (<["judge_model" := VStr judge_model]>
                  (<["llm_judge_score" := VFloat v]> ∅))
    | Raises e =>
        if is_Exception e
        then Returns (<["judge_model" := VStr judge_model]>
                       (<["llm_judge_score" := VFloat float_0_5]> ∅))
        else Raises e
    end.
Proof.
  intros Hclient. unfold create_llm_judge_evaluator. rewrite Hclient. cbn.
  destruct (judge_score X judge_model _) as [v | e]; cbn; [reflexivity |].
  by destruct (is_Exception e).
Qed.

(** The scoring call on an answer that parses. *)
Lemma judge_score_parsed X (judge_model prompt : string) (r : chat_completion)
    (c : chat_choice) (rest : list chat_choice) (text : string) (raw : spec_float) :
  chat_completions_create X
    {| model := judge_model;
       messages := [ <["content" := prompt]> (<["role" := "user"]> ∅) ];
       max_tokens := 10;
       temperature := float_0_1 |} = Returns r ->
  choices r = c :: rest ->
  content (message c) = Some text ->
  py_float X (py_strip text) = Returns raw ->
  judge_score X judge_model prompt = Returns (normalize_score raw).
Proof.
  intros Hr Hc Ht Hf. unfold judge_score. rewrite Hr. cbn.
  rewrite Hc. cbn. rewrite Ht. cbn. rewrite Hf. reflexivity.
Qed.

(** X16: a result of the judge evaluator has exactly the two keys
    llm_judge_score and judge_model, the second bound to the name of the
    judge model; the score is a float. *)
Theorem llm_judge_result_shape X (judge_model : string)
    (inputs : gmap string pyval) (output : pyval) (scores : gmap string pyval) :
  create_llm_judge_evaluator X judge_model inputs output = Returns scores ->
  dom scores = ({[ "llm_judge_score"; "judge_model" ]} : gset string) /\
  scores !! "judge_model" = Some (VStr judge_model) /\
  exists score : spec_float, scores !! "llm_judge_score" = Some (VFloat score).
Proof.
  unfold create_llm_judge_evaluator.
  destruct (OpenAI_new X) as [[] | e0]; cbn; [| discriminate].
  destruct (try_except_Exception _ _) as [score | e]; cbn; [| discriminate].
  intros [= <-]. split; [| split].
  - rewrite !dom_insert_L, dom_empty_L. set_solver.
  - by simplify_map_eq.
  - exists score. by simplify_map_eq.
Qed.

Lemma llm_judge_result_shape_witness :
  exists scores : gmap string pyval,
    create_llm_judge_evaluator offline "gpt-4o-mini" ∅ (VStr "Hi") = Returns scores /\
    dom scores = ({[ "llm_judge_score"; "judge_model" ]} : gset string) /\
    scores !! "judge_model" = Some (VStr "gpt-4o-mini") /\
    exists score : spec_float, scores !! "llm_judge_score" = Some (VFloat score).
Proof.
  eexists. split; [reflexivity |].
  apply (llm_judge_result_shape offline "gpt-4o-mini" ∅ (VStr "Hi")).
  reflexivity.
Defined.

(** X17: a judge whose answer parses to NaN is given the top score 1.0:
    the parse succeeds, so the fallback 0.5 is not used, and [min(10, nan)]
    is [10]. *)
Theorem llm_judge_nan_scores_one X (judge_model : string)
    (inputs : gmap string pyval) (output : pyval)
    (r : chat_completion) (c : chat_choice) (rest : list chat_choice) (text : string) :
  OpenAI_new X = Returns tt ->
  chat_completions_create X
    {| model := judge_model;
       messages :=
         [ <["content" := judge_prompt X (extract_query X inputs)
                            (extract_response X output)]>
             (<["role" := "user"]> ∅) ];
       max_tokens := 10;
       temperature := float_0_1 |} = Returns r ->
  choices r = c :: rest ->
  content (message c) = Some text ->
  py_float X (py_strip text) = Returns S754_nan ->
  exists scores : gmap string pyval,
    create_llm_judge_evaluator X judge_model inputs output = Returns scores /\
    scores !! "llm_judge_score" = Some (VFloat float_1).
Proof.
  intros Hclient Hr Hc Ht Hf.
  rewrite create_llm_judge_evaluator_with_client by assumption.
  rewrite (judge_score_parsed X _ _ r c rest text S754_nan) by assumption.
  eexists. split; [reflexivity |]. by simplify_map_eq.
Qed.

Lemma llm_judge_nan_scores_one_witness :
  exists scores : gmap string pyval,
    create_llm_judge_evaluator nan_judge "gpt-4o-mini" ∅ (VStr "Hi") = Returns scores /\
    scores !! "llm_judge_score" = Some (VFloat float_1).
Proof.
  apply (llm_judge_nan_scores_one nan_judge "gpt-4o-mini" ∅ (VStr "Hi")
           (answer "nan") {| message := {| content := Some "nan" |} |} [] "nan");
    reflexivity.
Defined.

(** X18: a reply without any choice, or whose first choice has no content,
    is a failure of the scoring call like any other: the score is 0.5. *)
Theorem llm_judge_empty_reply_is_neutral X (judge_model : string)
    (inputs : gmap string pyval) (output : pyval) (r : chat_completion) :
  OpenAI_new X = Returns tt ->
  chat_completions_create X
    {| model := judge_model;
       messages :=
         [ <["content" := judge_prompt X (extract_query X inputs)
                            (extract_response X output)]>
             (<["role" := "user"]> ∅) ];
       max_tokens := 10;
       temperature := float_0_1 |} = Returns r ->
  choices r = [] \/
    (exists c rest, choices r = c :: rest /\ content (message c) = None) ->
  exists scores : gmap string pyval,
    create_llm_judge_evaluator X judge_model inputs output = Returns scores /\
    scores !! "llm_judge_score" = Some (VFloat float_0_5).
Proof.
  intros Hclient Hr Hempty.
  rewrite create_llm_judge_evaluator_with_client by assumption.
  unfold judge_score. rewrite Hr. cbn.
  destruct Hempty as [-> | (c & rest & -> & Hc)]; cbn.
  - eexists. split; [reflexivity |]. by simplify_map_eq.
  - rewrite Hc. cbn. eexists. split; [reflexivity |]. by simplify_map_eq.
Qed.

Lemma llm_judge_empty_reply_is_neutral_witness :
  exists scores : gmap string pyval,
    create_llm_judge_evaluator mute_judge "gpt-4o-mini" ∅ (VStr "Hi") = Returns scores /\
    scores !! "llm_judge_score" = Some (VFloat float_0_5).
Proof.
  apply (llm_judge_empty_reply_is_neutral mute_judge "gpt-4o-mini" ∅ (VStr "Hi")
           {| choices := [] |}).
  - reflexivity.
  - reflexivity.
  - left. reflexivity.
Defined.

(** X19: the client is built outside the [try] block: when [OpenAI()]
    raises, the evaluator raises the same exception, of whatever class, and
    no score is produced. *)
Theorem llm_judge_client_error_propagates X (judge_model : string)
    (inputs : gmap string pyval) (output : pyval) (e : exn) :
  OpenAI_new X = Raises e ->
  create_llm_judge_evaluator X judge_model inputs output = Raises e.
Proof.
  intros Hclient. unfold create_llm_judge_evaluator. by rewrite Hclient.
Qed.

Lemma llm_judge_client_error_propagates_witness :
  create_llm_judge_evaluator no_key "gpt-4o-mini" ∅ (VStr "Hi") =
    Raises (Exn OpenAIError "The api_key client option must be set").
Proof.
  apply (llm_judge_client_error_propagates no_key "gpt-4o-mini" ∅ (VStr "Hi")).
  reflexivity.
Defined.

(** ** The clamp of the judge's answer *)

Lemma SFleb_10_not_below (score : spec_float) :
  SFleb float_10 score = true -> SFltb score float_10 = false.
Proof.
  destruct score as [s | [] | | [] m e]; try discriminate; try reflexivity.
  unfold SFleb, SFltb, SFcompare, float_10.
  rewrite (Z.compare_antisym e (-49)).
  destruct (e ?= -49)%Z; cbn [CompOpp]; try done.
  rewrite !Pos.compare_cont_spec.
  rewrite (Pos.compare_antisym m 5629499534213120).
  by destruct (m ?= 5629499534213120)%positive.
Qed.

(** X20: an answer of ten or more, [inf] included, is scored 1.0. *)
Theorem normalize_score_clamps_high (score : spec_float) :
  SFleb float_10 score = true -> normalize_score score = float_1.
Proof.
  intros Hge. rewrite normalize_score_cases.
  by rewrite SFleb_10_not_below.
Qed.

Lemma normalize_score_clamps_high_witness :
  normalize_score (float_of_Z 42) = float_1.
Proof. apply (normalize_score_clamps_high (float_of_Z 42)). by vm_compute. Defined.

(** X21: an answer of zero or less, [-inf] and the negative zero included,
    is scored 0.0. *)
Theorem normalize_score_clamps_low (score : spec_float) :
  SFleb score float_0 = true -> normalize_score score = float_0.
Proof.
  intros Hle. rewrite normalize_score_cases.
  by destruct score as [s | [] | | [] m e].
Qed.

Lemma normalize_score_clamps_low_witness :
  normalize_score (float_of_Z (-3)) = float_0.
Proof. apply (normalize_score_clamps_low (float_of_Z (-3))). by vm_compute. Defined.

(** ** get_aggregation_metrics on any list *)

Lemma elem_of_optional_pair (b : bool) (x y : string * string) :
  x ∈ (if b then [y] else []) <-> b = true /\ x = y.
Proof.
  destruct b.
  - rewrite list_elem_of_singleton. tauto.
  - rewrite elem_of_nil. split; [tauto | intros [? _]; discriminate].
Qed.

Lemma elem_of_aggregations_of (name n kind : string) :
  (n, kind) ∈ aggregations_of name <->
  n = name /\
  (kind = "mean" \/
   kind = "max" /\ name ∈ ["response_length"; "latency"] \/
   kind = "min" /\ name ∈ ["quality_score"; "confidence"]).
Proof.
  unfold aggregations_of.
  rewrite !elem_of_app, !elem_of_optional_pair, list_elem_of_singleton, !py_in_true.
  split.
  - intros [[= -> ->] | [[H [= -> ->]] | [H [= -> ->]]]]; auto.
  - intros [-> [-> | [[-> H] | [-> H]]]]; auto.
Qed.

Lemma elem_of_get_aggregation_metrics (names : list string) (n kind : string) :
  (n, kind) ∈ get_aggregation_metrics (Some names) <->
  n ∈ names /\
  (kind = "mean" \/
   kind = "max" /\ n ∈ ["response_length"; "latency"] \/
   kind = "min" /\ n ∈ ["quality_score"; "confidence"]).
Proof.
  rewrite get_aggregation_metrics_concat.
  induction names as [| name names IH]; cbn [map concat].
  - rewrite !elem_of_nil. tauto.
  - rewrite elem_of_app, IH, elem_of_aggregations_of, (elem_of_cons names n name).
    split.
    + intros [[-> H] | [Hin H]]; (split; [auto | exact H]).
    + intros [[-> | Hin] H]; [left | right]; (split; [done | exact H]).
Qed.

(** X22: the pairs [get_aggregation_metrics] returns are exactly: mean for
    every name of the list, max for response_length and latency, min for
    quality_score and confidence.  No other name and no other aggregation
    appears. *)
Theorem get_aggregation_metrics_pairs (names : list string) (n kind : string) :
  (n, kind) ∈ get_aggregation_metrics (Some names) <->
  n ∈ names /\
  (kind = "mean" \/
   kind = "max" /\ (n = "response_length" \/ n = "latency") \/
   kind = "min" /\ (n = "quality_score" \/ n = "confidence")).
Proof.
  rewrite elem_of_get_aggregation_metrics, !elem_of_cons, !elem_of_nil. tauto.
Qed.

(** X23: the list is built name by name: the result for a concatenation is
    the concatenation of the results, so the pairs follow the order of the
    names and a repeated name is repeated. *)
Theorem get_aggregation_metrics_app (names1 names2 : list string) :
  get_aggregation_metrics (Some (names1 ++ names2)) =
    get_aggregation_metrics (Some names1) ++ get_aggregation_metrics (Some names2).
Proof.
  rewrite !get_aggregation_metrics_concat. by rewrite map_app, concat_app.
Qed.

Lemma length_aggregations_of (name : string) :
  1 <= length (aggregations_of name) <= 2.
Proof.
  unfold aggregations_of.
  destruct (py_in name ["response_length"; "latency"]) eqn:Hmax;
    destruct (py_in name ["quality_score"; "confidence"]) eqn:Hmin; cbn; try lia.
  exfalso. apply py_in_true in Hmax, Hmin.
  rewrite !elem_of_cons, elem_of_nil in Hmax, Hmin.
  destruct Hmax as [-> | [-> | []]]; destruct Hmin as [? | [? | []]]; discriminate.
Qed.

(** X24: every name contributes one or two pairs: the result is at least as
    long as the list of names and at most twice as long; an empty list gives
    an empty result. *)
Theorem get_aggregation_metrics_length (names : list string) :
  length names <= length (get_aggregation_metrics (Some names)) <= 2 * length names.
Proof.
  rewrite get_aggregation_metrics_concat.
  induction names as [| name names IH]; cbn [map concat length]; [lia |].
  rewrite length_app. pose proof (length_aggregations_of name). lia.
Qed.

(** ** The evaluator and the aggregations together *)

(** X25: with the same list of metrics, every score the evaluator reports
    has its mean among the aggregations. *)
Theorem evaluator_scores_are_aggregated X (metrics : list string)
    (inputs : gmap string pyval) (output : pyval) (k : string) :
  is_Some (create_evaluator X (Some metrics) inputs output !! k) ->
  (k, "mean") ∈ get_aggregation_metrics (Some metrics).
Proof.
  intros Hk. apply create_evaluator_key_requested in Hk.
  apply elem_of_get_aggregation_metrics. split; [exact Hk | by left].
Qed.

Lemma evaluator_scores_are_aggregated_witness :
  ("quality_score", "mean") ∈
    get_aggregation_metrics (Some ["quality_score"; "response_length"]).
Proof.
  apply (evaluator_scores_are_aggregated online ["quality_score"; "response_length"]
           ∅ (VStr "Hi") "quality_score").
  eexists. reflexivity.
Defined.

(** X26: the two defaults differ: called without arguments,
    [get_aggregation_metrics] aggregates confidence, which the evaluator
    built without arguments never reports. *)
Theorem default_confidence_mismatch X (inputs : gmap string pyval) (output : pyval) :
  ("confidence", "mean") ∈ get_aggregation_metrics None /\
  ("confidence", "min") ∈ get_aggregation_metrics None /\
  create_evaluator X None inputs output !! "confidence" = None.
Proof.
  split; [| split].
  - change (get_aggregation_metrics None) with
      (get_aggregation_metrics (Some ["quality_score"; "response_length"; "confidence"])).
    apply elem_of_get_aggregation_metrics. split; [| by left].
    rewrite !elem_of_cons. auto.
  - change (get_aggregation_metrics None) with
      (get_aggregation_metrics (Some ["quality_score"; "response_length"; "confidence"])).
    apply elem_of_get_aggregation_metrics. split.
    + rewrite !elem_of_cons. auto.
    + right. right. split; [reflexivity |]. rewrite !elem_of_cons. auto.
  - by rewrite create_evaluator_confidence.
Qed.
